(** * Unstructured Finance Analysis Agent (src/uagent/main.py)

    A shallow embedding of the FastAPI service: the startup configuration,
    the [POST /analyze] handler [analyze_unstructured_data], the [GET /]
    handler [read_root], and the pieces of the libraries the handler runs
    inside its [try] block: [json.loads] (CPython's scanner), the rendering
    done by [JSONResponse(...)] and the request validation FastAPI performs
    with the pydantic model [AnalysisRequest]. *)

From Stdlib Require Import ZArith List String Ascii Bool Lia.
Import ListNotations.

(* ------------------------------------------------------------------ *)
(** ** Python text *)

(** A Python [str] is a sequence of code points. *)
Definition pystr := list Z.

(** ASCII literals of the source, as Python strings. *)
Definition u (s : string) : pystr :=
  map (fun a => Z.of_nat (nat_of_ascii a)) (list_ascii_of_string s).

Definition NL : pystr := [10%Z].

Definition pystr_eqb (a b : pystr) : bool :=
  if list_eq_dec Z.eq_dec a b then true else false.

Fixpoint uint_digits (d : Decimal.uint) : pystr :=
  match d with
  | Decimal.Nil => []
  | Decimal.D0 d => 48%Z :: uint_digits d
  | Decimal.D1 d => 49%Z :: uint_digits d
  | Decimal.D2 d => 50%Z :: uint_digits d
  | Decimal.D3 d => 51%Z :: uint_digits d
  | Decimal.D4 d => 52%Z :: uint_digits d
  | Decimal.D5 d => 53%Z :: uint_digits d
  | Decimal.D6 d => 54%Z :: uint_digits d
  | Decimal.D7 d => 55%Z :: uint_digits d
  | Decimal.D8 d => 56%Z :: uint_digits d
  | Decimal.D9 d => 57%Z :: uint_digits d
  end.

(** [str(n)] for a Python [int]. *)
Definition str_of_Z (z : Z) : pystr :=
  if (z <? 0)%Z then 45%Z :: uint_digits (N.to_uint (Z.to_N (- z)))
  else uint_digits (N.to_uint (Z.to_N z)).

Definition hex_digit (d : Z) : Z := if (d <? 10)%Z then (48 + d)%Z else (87 + d)%Z.

(** Four lowercase hex digits, as in [repr('\ud800')]. *)
Definition hex4 (c : Z) : pystr :=
  map (fun k => hex_digit (Z.land (Z.shiftr c (4 * k)) 15)) [3; 2; 1; 0]%Z.

(* ------------------------------------------------------------------ *)
(** ** Python values produced by [json.loads] *)

#[local] Set Warnings "-register-all".

(** A Python [float] read from a JSON number.  [PFinite neg m e] is the
    decimal value [(-1)^neg * m * 10^e] of the literal; the rounding to the
    nearest double is not modelled, only the overflow to [inf], which is
    what [float()] returns for literals beyond the largest double. *)
Inductive pyfloat :=
| PFinite (neg : bool) (mant : N) (exp10 : Z)
| PInf (neg : bool)
| PNaN.

Inductive pyobj :=
| PNone
| PBool (b : bool)
| PInt (z : Z)
| PFloat (f : pyfloat)
| PStr (s : pystr)
| PList (xs : list pyobj)
| PDict (kvs : list (pystr * pyobj)).

(** [d.get(k)] on a Python dict kept in insertion order. *)
Fixpoint dict_get (k : pystr) (kvs : list (pystr * pyobj)) : option pyobj :=
  match kvs with
  | [] => None
  | (k', v) :: t => if pystr_eqb k k' then Some v else dict_get k t
  end.

(** [d[k] = v]: an existing key keeps its place and takes the new value. *)
Fixpoint dict_set (k : pystr) (v : pyobj) (kvs : list (pystr * pyobj))
  : list (pystr * pyobj) :=
  match kvs with
  | [] => [(k, v)]
  | (k', v') :: t =>
      if pystr_eqb k k' then (k', v) :: t else (k', v') :: dict_set k v t
  end.

(* ------------------------------------------------------------------ *)
(** ** Exceptions *)

(** The exceptions that can arise in the handler.  All of them are
    subclasses of [Exception]. *)
Inductive exn :=
| JSONDecodeError (msg : pystr) (doc : pystr) (pos : nat)
| ValueError (msg : pystr)
| UnicodeEncodeError (ch : Z)
| ProviderError (msg : pystr)   (* anything the Gemini client raises *)
| RecursionError (msg : pystr)
| HTTPException (status_code : Z) (detail : pystr).

Fixpoint last_nl (l : pystr) (i : nat) (acc : option nat) : option nat :=
  match l with
  | [] => acc
  | c :: t => last_nl t (S i) (if (c =? 10)%Z then Some i else acc)
  end.

(** [str(e)].  For a [JSONDecodeError] this is
    ["%s: line %d column %d (char %d)"]; for the [UnicodeEncodeError]
    raised by [.encode("utf-8")] the position inside the encoded text is
    left out of the message. *)
Definition py_str (e : exn) : pystr :=
  match e with
  | JSONDecodeError msg doc pos =>
      let pre := firstn pos doc in
      let lineno := S (count_occ Z.eq_dec pre 10%Z) in
      let colno := match last_nl pre 0 None with
                   | Some j => pos - j
                   | None => S pos
                   end in
      msg ++ u ": line " ++ str_of_Z (Z.of_nat lineno)
          ++ u " column " ++ str_of_Z (Z.of_nat colno)
          ++ u " (char " ++ str_of_Z (Z.of_nat pos) ++ u ")"
  | ValueError msg => msg
  | UnicodeEncodeError c =>
      u "'utf-8' codec can't encode character '\u" ++ hex4 c
        ++ u "': surrogates not allowed"
  | ProviderError msg => msg
  | RecursionError msg => msg
  | HTTPException code detail => str_of_Z code ++ u ": " ++ detail
  end.

(* ------------------------------------------------------------------ *)
(** ** Effects: a state and exception monad over an event trace *)

Record gen_config := { response_mime_type : pystr }.

(** Observable effects of a request: calls to the generation provider and
    lines written by [print]. *)
Inductive event :=
| Generate (prompt : pystr) (cfg : gen_config)
| Print (line : pystr).

Inductive outcome (A : Type) :=
| Ok (a : A)
| Raise (e : exn).
Arguments Ok {A} a.
Arguments Raise {A} e.

Definition M (A : Type) := list event -> outcome A * list event.

Definition ret {A} (a : A) : M A := fun tr => (Ok a, tr).
Definition raise {A} (e : exn) : M A := fun tr => (Raise e, tr).
Definition bind {A B} (m : M A) (k : A -> M B) : M B :=
  fun tr => match m tr with
            | (Ok a, tr') => k a tr'
            | (Raise e, tr') => (Raise e, tr')
            end.
Definition emit (ev : event) : M unit := fun tr => (Ok tt, tr ++ [ev]).

(** [try: body except Exception as e: handler(e)]. *)
Definition try_except {A} (body : M A) (handler : exn -> M A) : M A :=
  fun tr => match body tr with
            | (Ok a, tr') => (Ok a, tr')
            | (Raise e, tr') => handler e tr'
            end.

(** Lift a fallible pure computation. *)
Definition of_sum {A} (r : A + exn) : M A :=
  match r with inl a => ret a | inr e => raise e end.

Notation "x <- m ;; k" := (bind m (fun x => k))
  (at level 61, m at next level, right associativity).
Notation "m ;;; k" := (bind m (fun _ => k))
  (at level 61, right associativity).

(* ------------------------------------------------------------------ *)
(** ** [json.loads]: CPython's JSON scanner (the C accelerator, strict mode) *)

Definition is_ws (c : Z) : bool :=
  (c =? 32)%Z || (c =? 9)%Z || (c =? 10)%Z || (c =? 13)%Z.

Fixpoint ws_len (l : pystr) : nat :=
  match l with
  | c :: t => if is_ws c then S (ws_len t) else 0
  | [] => 0
  end.

(** [WHITESPACE.match(s, idx).end()] *)
Definition ws_end (s : pystr) (idx : nat) : nat := idx + ws_len (skipn idx s).

Fixpoint starts_with (p l : pystr) : bool :=
  match p, l with
  | [], _ => true
  | a :: p', b :: l' => (a =? b)%Z && starts_with p' l'
  | _ :: _, [] => false
  end.

Definition is_digit (c : Z) : bool := (48 <=? c)%Z && (c <=? 57)%Z.

Fixpoint span_digits (l : pystr) : pystr * pystr :=
  match l with
  | c :: t => if is_digit c then let (ds, r) := span_digits t in (c :: ds, r)
              else ([], l)
  | [] => ([], [])
  end.

Definition digits_value (ds : pystr) : N :=
  fold_left (fun acc c => (acc * 10 + Z.to_N (c - 48))%N) ds 0%N.

(** The groups of the scanner's [NUMBER_RE]: an optional minus sign, then
    [0] or a nonzero digit and more digits, then an optional fraction
    (a dot and at least one digit), then an optional exponent ([e] or [E],
    an optional sign and at least one digit). *)
Record num_lexeme := {
  n_neg : bool;
  n_int : pystr;
  n_frac : option pystr;
  n_exp : option (bool * pystr)
}.

Definition match_int (l : pystr) : option (pystr * pystr) :=
  match l with
  | c :: t =>
      if (c =? 48)%Z then Some ([c], t)
      else if is_digit c then let (ds, r) := span_digits t in Some (c :: ds, r)
      else None
  | [] => None
  end.

Definition match_frac (l : pystr) : option pystr * pystr :=
  match l with
  | c :: t =>
      if (c =? 46)%Z then
        match span_digits t with
        | ([], _) => (None, l)
        | (ds, r) => (Some ds, r)
        end
      else (None, l)
  | [] => (None, [])
  end.

Definition match_exp (l : pystr) : option (bool * pystr) * pystr :=
  match l with
  | c :: t =>
      if (c =? 101)%Z || (c =? 69)%Z then
        let '(neg, t') :=
          match t with
          | s :: t'' => if (s =? 45)%Z then (true, t'')
                        else if (s =? 43)%Z then (false, t'') else (false, t)
          | [] => (false, t)
          end in
        match span_digits t' with
        | ([], _) => (None, l)
        | (ds, r) => (Some (neg, ds), r)
        end
      else (None, l)
  | [] => (None, [])
  end.

(** [NUMBER_RE.match]: the lexeme and the number of characters matched. *)
Definition match_number (l : pystr) : option (num_lexeme * nat) :=
  let '(neg, l1) :=
    match l with
    | c :: t => if (c =? 45)%Z then (true, t) else (false, l)
    | [] => (false, l)
    end in
  match match_int l1 with
  | None => None
  | Some (ip, r1) =>
      let '(fr, r2) := match_frac r1 in
      let '(ex, r3) := match_exp r2 in
      Some ({| n_neg := neg; n_int := ip; n_frac := fr; n_exp := ex |},
            List.length l - List.length r3)
  end.

(** Half an ulp above the largest double: a decimal value at or beyond it
    rounds to [inf]. *)
Definition float_overflow_bound : Z := (2 ^ 1024 - 2 ^ 970)%Z.

(** [float(integer + frac + exp)]. *)
Definition parse_float (lx : num_lexeme) : pyfloat :=
  let fr := match n_frac lx with Some f => f | None => [] end in
  let e := match n_exp lx with
           | Some (true, ds) => (- Z.of_N (digits_value ds))%Z
           | Some (false, ds) => Z.of_N (digits_value ds)
           | None => 0%Z
           end in
  let digits := n_int lx ++ fr in
  let m := digits_value digits in
  let e10 := (e - Z.of_nat (List.length fr))%Z in
  let mz := Z.of_N m in
  let overflow :=
    if (mz =? 0)%Z then false
    else if (400 <? e10)%Z then true
    else if (e10 + Z.of_nat (List.length digits) <? 0)%Z then false
    else if (0 <=? e10)%Z then (float_overflow_bound <=? mz * 10 ^ e10)%Z
    else (float_overflow_bound * 10 ^ (- e10) <=? mz)%Z in
  if overflow then PInf (n_neg lx) else PFinite (n_neg lx) m e10.

(** [int(integer)] when there is neither a fraction nor an exponent. *)
Definition number_value (lx : num_lexeme) : pyobj :=
  match n_frac lx, n_exp lx with
  | None, None =>
      let v := Z.of_N (digits_value (n_int lx)) in
      PInt (if n_neg lx then (- v)%Z else v)
  | _, _ => PFloat (parse_float lx)
  end.

Definition is_hex (c : Z) : bool :=
  is_digit c || ((97 <=? c)%Z && (c <=? 102)%Z) || ((65 <=? c)%Z && (c <=? 70)%Z).

Definition hex_val (c : Z) : Z :=
  if is_digit c then (c - 48)%Z
  else if ((97 <=? c)%Z && (c <=? 102)%Z) then (c - 87)%Z else (c - 55)%Z.

Definition hex4_value (a b c d : Z) : option Z :=
  if is_hex a && is_hex b && is_hex c && is_hex d
  then Some (((hex_val a * 16 + hex_val b) * 16 + hex_val c) * 16 + hex_val d)%Z
  else None.

Definition is_high_surrogate (c : Z) : bool := (55296 <=? c)%Z && (c <=? 56319)%Z.
Definition is_low_surrogate (c : Z) : bool := (56320 <=? c)%Z && (c <=? 57343)%Z.

(** [Py_UNICODE_JOIN_SURROGATES]. *)
Definition join_surrogates (hi lo : Z) : Z := (65536 + (hi - 55296) * 1024 + (lo - 56320))%Z.
Arguments join_surrogates : simpl never.

(** The character denoted by a one-letter escape. *)
Definition simple_escape (e : Z) : option Z :=
  if (e =? 34)%Z then Some 34%Z        (* quote *)
  else if (e =? 92)%Z then Some 92%Z   (* backslash *)
  else if (e =? 47)%Z then Some 47%Z   (* slash *)
  else if (e =? 98)%Z then Some 8%Z    (* b *)
  else if (e =? 102)%Z then Some 12%Z  (* f *)
  else if (e =? 110)%Z then Some 10%Z  (* n *)
  else if (e =? 114)%Z then Some 13%Z  (* r *)
  else if (e =? 116)%Z then Some 9%Z   (* t *)
  else None.

(** [scanstring(doc, end, strict=True)]: [l] is the rest of [doc] from
    position [pos], [qpos] the position of the opening quote, [acc] the
    characters read so far, reversed.  Returns the string and the position
    after the closing quote. *)
Fixpoint scan_str (doc : pystr) (qpos : nat) (l : pystr) (pos : nat)
  (acc : pystr) : (pystr * nat) + exn :=
  match l with
  | [] => inr (JSONDecodeError (u "Unterminated string starting at") doc qpos)
  | c :: t =>
      if (c =? 34)%Z then inl (rev acc, S pos)
      else if (c =? 92)%Z then
        match t with
        | [] => inr (JSONDecodeError (u "Unterminated string starting at") doc qpos)
        | e :: t' =>
            if (e =? 117)%Z then
              match t' with
              | a :: b :: c1 :: d :: t'' =>
                  match hex4_value a b c1 d with
                  | None => inr (JSONDecodeError (u "Invalid \uXXXX escape") doc pos)
                  | Some v =>
                      if is_high_surrogate v then
                        match t'' with
                        | x :: y :: a2 :: b2 :: c2 :: d2 :: t3 =>
                            if (x =? 92)%Z && (y =? 117)%Z then
                              match hex4_value a2 b2 c2 d2 with
                              | None =>
                                  inr (JSONDecodeError (u "Invalid \uXXXX escape")
                                         doc (pos + 6))
                              | Some w =>
                                  if is_low_surrogate w then
                                    scan_str doc qpos t3 (pos + 12)
                                      (join_surrogates v w :: acc)
                                  else scan_str doc qpos t'' (pos + 6) (v :: acc)
                              end
                            else scan_str doc qpos t'' (pos + 6) (v :: acc)
                        | _ => scan_str doc qpos t'' (pos + 6) (v :: acc)
                        end
                      else scan_str doc qpos t'' (pos + 6) (v :: acc)
                  end
              | _ => inr (JSONDecodeError (u "Invalid \uXXXX escape") doc pos)
              end
            else
              match simple_escape e with
              | Some r => scan_str doc qpos t' (pos + 2) (r :: acc)
              | None => inr (JSONDecodeError (u "Invalid \escape") doc pos)
              end
        end
      else if (c <? 32)%Z then
        inr (JSONDecodeError (u "Invalid control character at") doc pos)
      else scan_str doc qpos t (S pos) (c :: acc)
  end.

Definition err_at (msg : string) (s : pystr) (idx : nat) {A} : A + exn :=
  inr (JSONDecodeError (u msg) s idx).

Definition char_is (s : pystr) (idx : nat) (c : Z) : bool :=
  match nth_error s idx with Some d => (d =? c)%Z | None => false end.

Definition scan_string_at (s : pystr) (idx : nat) : (pystr * nat) + exn :=
  scan_str s idx (skipn (S idx) s) (S idx) [].

(** [scan_once], [_parse_object] and [_parse_array].  The fuel bounds the
    nesting of calls; every call starts further right in [s] than its
    caller, so [json_loads] gives enough of it for every input. *)
Fixpoint scan_once (fuel : nat) (s : pystr) (idx : nat) : (pyobj * nat) + exn :=
  match fuel with
  | O => inr (RecursionError (u "maximum recursion depth exceeded"))
  | S f =>
      match nth_error s idx with
      | None => err_at "Expecting value" s idx
      | Some c =>
          if (c =? 34)%Z then
            match scan_string_at s idx with
            | inl (str, e) => inl (PStr str, e)
            | inr ex => inr ex
            end
          else if (c =? 123)%Z then
            let i := ws_end s (S idx) in
            if char_is s i 125 then inl (PDict [], S i)
            else object_members f s i []
          else if (c =? 91)%Z then
            let i := ws_end s (S idx) in
            if char_is s i 93 then inl (PList [], S i)
            else array_items f s i []
          else if starts_with (u "null") (skipn idx s) then inl (PNone, idx + 4)
          else if starts_with (u "true") (skipn idx s) then inl (PBool true, idx + 4)
          else if starts_with (u "false") (skipn idx s) then inl (PBool false, idx + 5)
          else if starts_with (u "NaN") (skipn idx s) then inl (PFloat PNaN, idx + 3)
          else if starts_with (u "Infinity") (skipn idx s) then
            inl (PFloat (PInf false), idx + 8)
          else if starts_with (u "-Infinity") (skipn idx s) then
            inl (PFloat (PInf true), idx + 9)
          else match match_number (skipn idx s) with
               | Some (lx, n) => inl (number_value lx, idx + n)
               | None => err_at "Expecting value" s idx
               end
      end
  end
(** The members of an object, from where a key is expected. *)
with object_members (fuel : nat) (s : pystr) (i : nat)
  (acc : list (pystr * pyobj)) : (pyobj * nat) + exn :=
  match fuel with
  | O => inr (RecursionError (u "maximum recursion depth exceeded"))
  | S f =>
      if negb (char_is s i 34) then
        err_at "Expecting property name enclosed in double quotes" s i
      else
        match scan_string_at s i with
        | inr ex => inr ex
        | inl (key, j) =>
            let j := ws_end s j in
            if negb (char_is s j 58) then err_at "Expecting ':' delimiter" s j
            else
              match scan_once f s (ws_end s (S j)) with
              | inr ex => inr ex
              | inl (v, k) =>
                  let acc := dict_set key v acc in
                  let k := ws_end s k in
                  if char_is s k 125 then inl (PDict acc, S k)
                  else if char_is s k 44 then object_members f s (ws_end s (S k)) acc
                  else err_at "Expecting ',' delimiter" s k
              end
        end
  end
(** The items of an array, from where an item is expected. *)
with array_items (fuel : nat) (s : pystr) (i : nat) (acc : list pyobj)
  : (pyobj * nat) + exn :=
  match fuel with
  | O => inr (RecursionError (u "maximum recursion depth exceeded"))
  | S f =>
      match scan_once f s i with
      | inr ex => inr ex
      | inl (v, k) =>
          let acc := acc ++ [v] in
          let k := ws_end s k in
          if char_is s k 93 then inl (PList acc, S k)
          else if char_is s k 44 then array_items f s (ws_end s (S k)) acc
          else err_at "Expecting ',' delimiter" s k
      end
  end.

(** [json.loads(s)] for a [str]. *)
Definition json_loads (s : pystr) : pyobj + exn :=
  if starts_with [65279%Z] s then
    err_at "Unexpected UTF-8 BOM (decode using utf-8-sig)" s 0
  else
    match scan_once (S (S (List.length s))) s (ws_end s 0) with
    | inr ex => inr ex
    | inl (obj, e) =>
        let e' := ws_end s e in
        if Nat.eqb e' (List.length s) then inl obj else err_at "Extra data" s e'
    end.

(* ------------------------------------------------------------------ *)
(** ** [json.dumps] with the default arguments (used on the schema) *)

(** [ESCAPE_ASCII]: everything outside the range space..tilde, plus the
    quote and the backslash, is escaped. *)
Definition escape_ascii_char (c : Z) : pystr :=
  if (c =? 34)%Z then [92; 34]%Z
  else if (c =? 92)%Z then [92; 92]%Z
  else if (c =? 10)%Z then [92; 110]%Z
  else if (c =? 13)%Z then [92; 114]%Z
  else if (c =? 9)%Z then [92; 116]%Z
  else if (c =? 8)%Z then [92; 98]%Z
  else if (c =? 12)%Z then [92; 102]%Z
  else if (32 <=? c)%Z && (c <=? 126)%Z then [c]
  else if (c <? 65536)%Z then [92; 117]%Z ++ hex4 c
  else let v := (c - 65536)%Z in
       [92; 117]%Z ++ hex4 (55296 + Z.shiftr v 10)%Z
         ++ [92; 117]%Z ++ hex4 (56320 + Z.land v 1023)%Z.

Definition encode_basestring_ascii (s : pystr) : pystr :=
  [34%Z] ++ flat_map escape_ascii_char s ++ [34%Z].

Fixpoint join (sep : pystr) (xs : list pystr) : pystr :=
  match xs with
  | [] => []
  | [x] => x
  | x :: t => x ++ sep ++ join sep t
  end.

Definition opt_map_list {A B} (f : A -> option B) : list A -> option (list B) :=
  fix go l := match l with
              | [] => Some []
              | x :: t => match f x, go t with
                          | Some y, Some ys => Some (y :: ys)
                          | _, _ => None
                          end
              end.

(** [json.dumps(o)], separators [", "] and [": "], [ensure_ascii=True].
    [float.__repr__] of a finite float is not modelled ([None]); the
    schema below holds no number. *)
Fixpoint dumps (o : pyobj) : option pystr :=
  match o with
  | PNone => Some (u "null")
  | PBool true => Some (u "true")
  | PBool false => Some (u "false")
  | PInt z => Some (str_of_Z z)
  | PFloat PNaN => Some (u "NaN")
  | PFloat (PInf false) => Some (u "Infinity")
  | PFloat (PInf true) => Some (u "-Infinity")
  | PFloat (PFinite _ _ _) => None
  | PStr s => Some (encode_basestring_ascii s)
  | PList xs =>
      match opt_map_list dumps xs with
      | Some items => Some ([91%Z] ++ join (u ", ") items ++ [93%Z])
      | None => None
      end
  | PDict kvs =>
      match opt_map_list
              (fun kv => match dumps (snd kv) with
                         | Some v => Some (encode_basestring_ascii (fst kv) ++ u ": " ++ v)
                         | None => None
                         end) kvs with
      | Some items => Some ([123%Z] ++ join (u ", ") items ++ [125%Z])
      | None => None
      end
  end.

(* ------------------------------------------------------------------ *)
(** ** [JSONResponse(content=..., status_code=...)] *)

(** Starlette renders the content in the constructor:
    [json.dumps(content, ensure_ascii=False, allow_nan=False, indent=None,
    separators=(",", ":")).encode("utf-8")].  The dump fails on a [nan] or
    an infinity; the encoding fails on a lone surrogate. *)
Fixpoint has_nonfinite (o : pyobj) : bool :=
  match o with
  | PFloat (PFinite _ _ _) => false
  | PFloat _ => true
  | PList xs =>
      (fix go l := match l with [] => false | x :: t => has_nonfinite x || go t end) xs
  | PDict kvs =>
      (fix go l := match l with
                   | [] => false
                   | (_, v) :: t => has_nonfinite v || go t
                   end) kvs
  | _ => false
  end.

Definition first_surrogate_str (s : pystr) : option Z :=
  find (fun c => (55296 <=? c)%Z && (c <=? 57343)%Z) s.

Definition first_some (a : option Z) (b : unit -> option Z) : option Z :=
  match a with Some _ => a | None => b tt end.

(** The first lone surrogate of the dumped text, in output order. *)
Fixpoint first_surrogate (o : pyobj) : option Z :=
  match o with
  | PStr s => first_surrogate_str s
  | PList xs =>
      (fix go l := match l with
                   | [] => None
                   | x :: t => first_some (first_surrogate x) (fun _ => go t)
                   end) xs
  | PDict kvs =>
      (fix go l := match l with
                   | [] => None
                   | (k, v) :: t =>
                       first_some (first_surrogate_str k)
                         (fun _ => first_some (first_surrogate v) (fun _ => go t))
                   end) kvs
  | _ => None
  end.

Record JSONResponse := { content : pyobj; status_code : Z }.

Definition JSONResponse_new (content : pyobj) (status_code : Z) : M JSONResponse :=
  if has_nonfinite content then
    raise (ValueError (u "Out of range float values are not JSON compliant"))
  else match first_surrogate content with
       | Some c => raise (UnicodeEncodeError c)
       | None => ret {| content := content; status_code := status_code |}
       end.

(* ------------------------------------------------------------------ *)
(** ** Configuration (module level of main.py) *)

(** [os.environ]. *)
Definition environ := list (pystr * pystr).

Fixpoint getenv (env : environ) (k : pystr) : option pystr :=
  match env with
  | [] => None
  | (k', v) :: t => if pystr_eqb k k' then Some v else getenv t k
  end.

(** Python truthiness of [os.getenv(...)]: [None] and [""] are false. *)
Definition truthy (v : option pystr) : bool :=
  match v with None => false | Some [] => false | Some _ => true end.

Record app_config := { configured_api_key : pystr }.

(** Lines 17-20: [api_key = os.getenv("GEMINI_API_KEY")], the [ValueError]
    when it is falsy, then [genai.configure(api_key=api_key)]. *)
Definition startup (env : environ) : outcome app_config :=
  let api_key := getenv env (u "GEMINI_API_KEY") in
  if negb (truthy api_key) then
    Raise (ValueError (u "GEMINI_API_KEY environment variable not set."))
  else
    match api_key with
    | Some k => Ok {| configured_api_key := k |}
    | None => Raise (ValueError (u "GEMINI_API_KEY environment variable not set."))
    end.

(* ------------------------------------------------------------------ *)
(** ** The request model and the schema *)

Definition DEFAULT_CONTEXT : pystr := u "rural loans and government schemes in India".

Record AnalysisRequest := {
  unstructured_text : pystr;
  context : pystr
}.

Definition kv (k : string) (v : pyobj) : pystr * pyobj := (u k, v).
Definition S_ (s : string) : pyobj := PStr (u s).

Definition JSON_OUTPUT_SCHEMA : pyobj :=
  PDict [
    kv "type" (S_ "object");
    kv "properties" (PDict [
      kv "summary" (PDict [
        kv "type" (S_ "string");
        kv "description" (S_ "A brief, one-paragraph summary of the provided text.")]);
      kv "key_entities" (PDict [
        kv "type" (S_ "array");
        kv "description" (S_ "A list of key financial entities or terms mentioned.");
        kv "items" (PDict [kv "type" (S_ "string")])]);
      kv "sentiment" (PDict [
        kv "type" (S_ "string");
        kv "description" (S_ "Overall sentiment (Positive, Negative, Neutral).")]);
      kv "recommendations" (PDict [
        kv "type" (S_ "array");
        kv "description" (S_ "A list of 2-3 actionable financial recommendations based on the text.");
        kv "items" (PDict [kv "type" (S_ "string")])]);
      kv "potential_risks" (PDict [
        kv "type" (S_ "array");
        kv "description" (S_ "A list of potential risks or downsides identified from the text.");
        kv "items" (PDict [kv "type" (S_ "string")])])]);
    kv "required" (PList [S_ "summary"; S_ "key_entities"; S_ "sentiment";
                          S_ "recommendations"; S_ "potential_risks"])].

(** [json.dumps(JSON_OUTPUT_SCHEMA)]. *)
Definition SCHEMA_TEXT : pystr :=
  match dumps JSON_OUTPUT_SCHEMA with Some t => t | None => [] end.

(** The eight spaces of indentation the triple-quoted f-string keeps. *)
Definition INDENT : pystr := repeat 32%Z 8.

(** Lines 65-76: the f-string. *)
Definition build_prompt (request : AnalysisRequest) : pystr :=
  NL
  ++ INDENT ++ u "Analyze the following unstructured text regarding financial matters, specifically in the context of '"
  ++ context request ++ u "'." ++ NL
  ++ INDENT ++ u "Your task is to act as an expert financial analyst. Extract key information, identify risks, and provide actionable recommendations." ++ NL
  ++ INDENT ++ NL
  ++ INDENT ++ u "Please provide your analysis strictly in the following JSON format:" ++ NL
  ++ INDENT ++ SCHEMA_TEXT ++ NL
  ++ NL
  ++ INDENT ++ u "Here is the text to analyze:" ++ NL
  ++ INDENT ++ u "---" ++ NL
  ++ INDENT ++ unstructured_text request ++ NL
  ++ INDENT ++ u "---" ++ NL
  ++ INDENT.

(* ------------------------------------------------------------------ *)
(** ** The generation provider *)

(** What [await model.generate_content_async(...)] and the following
    [response.text] give: a text, or an exception.  The provider may depend
    on everything that happened before (quota, earlier calls). *)
Inductive gen_outcome :=
| GenText (text : pystr)
| GenRaise (e : exn).

Definition provider := list event -> pystr -> gen_config -> gen_outcome.

Definition generate_content_async (gen : provider) (prompt : pystr)
  (cfg : gen_config) : M pystr :=
  fun tr =>
    let tr' := tr ++ [Generate prompt cfg] in
    match gen tr prompt cfg with
    | GenText t => (Ok t, tr')
    | GenRaise e => (Raise e, tr')
    end.

Definition JSON_CONFIG : gen_config := {| response_mime_type := u "application/json" |}.

(* ------------------------------------------------------------------ *)
(** ** The handlers *)

(** Lines 64-87: the body of the [try]. *)
Definition analyze_try_body (gen : provider) (request : AnalysisRequest)
  : M JSONResponse :=
  let prompt := build_prompt request in
  response_text <- generate_content_async gen prompt JSON_CONFIG ;;
  parsed_response <- of_sum (json_loads response_text) ;;
  JSONResponse_new parsed_response 200.

(** Lines 58-91: [analyze_unstructured_data]. *)
Definition analyze_unstructured_data (gen : provider) (request : AnalysisRequest)
  : M JSONResponse :=
  try_except (analyze_try_body gen request)
    (fun e =>
       emit (Print (u "An error occurred: " ++ py_str e)) ;;;
       raise (HTTPException 500 (u "An internal error occurred: " ++ py_str e))).

(** Lines 94-96: [read_root]. *)
Definition read_root : M pyobj :=
  ret (PDict [kv "status" (S_ "Agent is running")]).

(* ------------------------------------------------------------------ *)
(** ** The FastAPI layer around the handlers *)

Inductive body :=
| JsonBody (j : pyobj)
| TextBody (t : pystr).

Record http_response := { status : Z; resp_body : body }.

(** Requests reach the app with their body already decoded; the body of a
    [POST /analyze] is sent as [application/json]. *)
Inductive http_request :=
| PostAnalyze (raw_body : pystr)
| GetRoot.

(** An entry of a pydantic (v2) validation error, as FastAPI returns it. *)
Definition verr (typ : string) (loc : list pyobj) (msg : string) (input : pyobj)
  : pyobj :=
  PDict [kv "type" (S_ typ); kv "loc" (PList loc); kv "msg" (S_ msg);
         kv "input" input].

(** Validation of one [str] field of [AnalysisRequest] (lax mode: a JSON
    value is accepted only when it is a string). *)
Definition validate_str_field (name : string) (dflt : option pystr)
  (kvs : list (pystr * pyobj)) (whole : pyobj) : pystr + list pyobj :=
  match dict_get (u name) kvs with
  | Some (PStr s) => inl s
  | Some v =>
      inr [verr "string_type" [S_ "body"; S_ name] "Input should be a valid string" v]
  | None =>
      match dflt with
      | Some d => inl d
      | None => inr [verr "missing" [S_ "body"; S_ name] "Field required" whole]
      end
  end.

Definition errs_of {A} (r : A + list pyobj) : list pyobj :=
  match r with inl _ => [] | inr es => es end.

(** [AnalysisRequest] validated from the decoded JSON body. *)
Definition validate_request (b : pyobj) : AnalysisRequest + list pyobj :=
  match b with
  | PDict kvs =>
      let ut := validate_str_field "unstructured_text" None kvs b in
      let ctx := validate_str_field "context" (Some DEFAULT_CONTEXT) kvs b in
      match ut, ctx with
      | inl t, inl c => inl {| unstructured_text := t; context := c |}
      | _, _ => inr (errs_of ut ++ errs_of ctx)
      end
  | _ =>
      inr [verr "model_attributes_type" [S_ "body"]
             "Input should be a valid dictionary or object to extract fields from" b]
  end.

(** How an exception leaving a route becomes a response: FastAPI's handler
    for [HTTPException], or Starlette's [ServerErrorMiddleware]. *)
Definition response_of_exn (e : exn) : http_response :=
  match e with
  | HTTPException code detail =>
      {| status := code; resp_body := JsonBody (PDict [kv "detail" (PStr detail)]) |}
  | _ => {| status := 500; resp_body := TextBody (u "Internal Server Error") |}
  end.

Definition validation_error_response (errs : list pyobj) : http_response :=
  {| status := 422; resp_body := JsonBody (PDict [kv "detail" (PList errs)]) |}.

(** [POST /analyze]: read the JSON body, validate it, run the handler. *)
Definition serve_analyze (gen : provider) (raw : pystr)
  (tr : list event) : http_response * list event :=
  let decoded :=
    match raw with
    | [] => inl None
    | _ => match json_loads raw with
           | inl b => inl (Some b)
           | inr e => inr e
           end
    end in
  match decoded with
  | inr (JSONDecodeError msg doc pos) =>
      (validation_error_response
         [PDict [kv "type" (S_ "json_invalid");
                 kv "loc" (PList [S_ "body"; PInt (Z.of_nat pos)]);
                 kv "msg" (S_ "JSON decode error");
                 kv "input" (PDict []);
                 kv "ctx" (PDict [kv "error" (PStr msg)])]], tr)
  | inr _ =>
      (response_of_exn (HTTPException 400 (u "There was an error parsing the body")), tr)
  | inl None =>
      (validation_error_response [verr "missing" [S_ "body"] "Field required" PNone], tr)
  | inl (Some b) =>
      match validate_request b with
      | inr errs => (validation_error_response errs, tr)
      | inl request =>
          match analyze_unstructured_data gen request tr with
          | (Ok r, tr') =>
              ({| status := status_code r; resp_body := JsonBody (content r) |}, tr')
          | (Raise e, tr') => (response_of_exn e, tr')
          end
      end
  end.

(** [GET /]: the returned dict is serialised with status 200. *)
Definition serve_root (tr : list event) : http_response * list event :=
  match read_root tr with
  | (Ok d, tr') => ({| status := 200; resp_body := JsonBody d |}, tr')
  | (Raise e, tr') => (response_of_exn e, tr')
  end.

Definition serve (gen : provider) (req : http_request) (tr : list event)
  : http_response * list event :=
  match req with
  | PostAnalyze raw => serve_analyze gen raw tr
  | GetRoot => serve_root tr
  end.

Fixpoint serve_all (gen : provider) (reqs : list http_request) (tr : list event)
  : list http_response * list event :=
  match reqs with
  | [] => ([], tr)
  | r :: rs =>
      let (resp, tr') := serve gen r tr in
      let (resps, tr'') := serve_all gen rs tr' in
      (resp :: resps, tr'')
  end.

(** The process: import [main] (startup), then serve the requests.  A
    failed startup serves nothing.  The provider is the client configured
    with the key. *)
Definition run (env : environ) (gen : app_config -> provider)
  (reqs : list http_request) : outcome (list http_response) * list event :=
  match startup env with
  | Raise e => (Raise e, [])
  | Ok cfg => let (resps, tr) := serve_all (gen cfg) reqs [] in (Ok resps, tr)
  end.

(* ------------------------------------------------------------------ *)
(** ** Auxiliary definitions for the statements *)

Definition ERROR_PREFIX : pystr := u "An internal error occurred: ".

Definition is_generate (ev : event) : bool :=
  match ev with Generate _ _ => true | Print _ => false end.

(** Number of provider calls in a list of events. *)
Definition count_generate (evs : list event) : nat :=
  List.length (filter is_generate evs).

(** The markers around the request's text in the prompt. *)
Definition SEP_OPEN : pystr := u "---" ++ NL ++ INDENT.
Definition SEP_CLOSE : pystr := NL ++ INDENT ++ u "---".

(** The prompt up to the context value. *)
Definition PROMPT_HEAD : pystr :=
  NL ++ INDENT ++ u "Analyze the following unstructured text regarding financial matters, specifically in the context of '".

Definition ROOT_RESPONSE : http_response :=
  {| status := 200; resp_body := JsonBody (PDict [kv "status" (S_ "Agent is running")]) |}.

(** The names listed under ["required"] in the schema. *)
Definition REQUIRED_FIELDS : list pystr :=
  [u "summary"; u "key_entities"; u "sentiment"; u "recommendations";
   u "potential_risks"].

(** A provider that answers every call with the same text. *)
Definition const_provider (t : pystr) : provider := fun _ _ _ => GenText t.

(** Source text with [']' standing for the double quote. *)
Definition uq (s : string) : pystr :=
  map (fun c => if (c =? 39)%Z then 34%Z else c) (u s).

(* ------------------------------------------------------------------ *)
(** ** Lemmas about the handler *)

Lemma JSONResponse_new_trace (j : pyobj) (code : Z) (tr : list event) :
  snd (JSONResponse_new j code tr) = tr.
Proof.
  unfold JSONResponse_new.
  destruct (has_nonfinite j); [reflexivity|].
  destruct (first_surrogate j); reflexivity.
Qed.

Lemma JSONResponse_new_ok (j : pyobj) (code : Z) (tr : list event) :
  has_nonfinite j = false -> first_surrogate j = None ->
  JSONResponse_new j code tr = (Ok {| content := j; status_code := code |}, tr).
Proof.
  intros Hf Hs. unfold JSONResponse_new. rewrite Hf, Hs. reflexivity.
Qed.

Lemma JSONResponse_new_status (j : pyobj) (code : Z) (tr : list event) r tr' :
  JSONResponse_new j code tr = (Ok r, tr') -> status_code r = code.
Proof.
  unfold JSONResponse_new.
  destruct (has_nonfinite j); [discriminate|].
  destruct (first_surrogate j); [discriminate|].
  intros H; inversion H; reflexivity.
Qed.

(** The body of the [try] makes exactly one provider call, with the prompt,
    and nothing else. *)
Lemma try_body_trace (gen : provider) (request : AnalysisRequest) (tr : list event) :
  snd (analyze_try_body gen request tr)
  = tr ++ [Generate (build_prompt request) JSON_CONFIG].
Proof.
  unfold analyze_try_body, bind, generate_content_async.
  destruct (gen tr (build_prompt request) JSON_CONFIG) as [t|e]; [|reflexivity].
  unfold of_sum. destruct (json_loads t) as [j|e]; [|reflexivity].
  unfold ret. apply JSONResponse_new_trace.
Qed.

Lemma try_body_ok_status (gen : provider) (request : AnalysisRequest)
  (tr : list event) r tr' :
  analyze_try_body gen request tr = (Ok r, tr') -> status_code r = 200%Z.
Proof.
  unfold analyze_try_body, bind, generate_content_async.
  destruct (gen tr (build_prompt request) JSON_CONFIG) as [t|e]; [|discriminate].
  unfold of_sum. destruct (json_loads t) as [j|e]; [|discriminate].
  unfold ret. apply JSONResponse_new_status.
Qed.

(** The handler is the [try] body, or on an exception [e] of it, a [print]
    and the [HTTPException(500, ...)] built from [str(e)]. *)
Lemma analyze_cases (gen : provider) (request : AnalysisRequest) (tr : list event) :
  analyze_unstructured_data gen request tr =
  match analyze_try_body gen request tr with
  | (Ok r, tr') => (Ok r, tr')
  | (Raise e, tr') =>
      (Raise (HTTPException 500 (ERROR_PREFIX ++ py_str e)),
       tr' ++ [Print (u "An error occurred: " ++ py_str e)])
  end.
Proof.
  unfold analyze_unstructured_data, try_except.
  destruct (analyze_try_body gen request tr) as [[r|e] tr']; reflexivity.
Qed.

Lemma analyze_trace (gen : provider) (request : AnalysisRequest) (tr : list event) :
  exists rest,
    snd (analyze_unstructured_data gen request tr)
    = tr ++ Generate (build_prompt request) JSON_CONFIG :: rest
    /\ count_generate rest = 0.
Proof.
  rewrite analyze_cases.
  pose proof (try_body_trace gen request tr) as H.
  destruct (analyze_try_body gen request tr) as [[r|e] tr']; simpl in H |- *; subst tr'.
  - exists []. split; reflexivity.
  - exists [Print (u "An error occurred: " ++ py_str e)].
    rewrite <- app_assoc. split; reflexivity.
Qed.

Lemma json_loads_nil : exists e, json_loads [] = inr e.
Proof. eexists. reflexivity. Qed.

(** [serve_analyze] once the body is decoded and validated. *)
Lemma serve_analyze_valid (gen : provider) (raw : pystr) (b : pyobj)
  (request : AnalysisRequest) (tr : list event) :
  json_loads raw = inl b -> validate_request b = inl request ->
  serve_analyze gen raw tr =
  match analyze_unstructured_data gen request tr with
  | (Ok r, tr') => ({| status := status_code r; resp_body := JsonBody (content r) |}, tr')
  | (Raise e, tr') => (response_of_exn e, tr')
  end.
Proof.
  intros Hb Hv. unfold serve_analyze.
  destruct raw as [|c raw'].
  - destruct json_loads_nil as [e He]. congruence.
  - rewrite Hb, Hv. reflexivity.
Qed.

(** [serve_analyze] when the body is decoded but fails validation. *)
Lemma serve_analyze_invalid (gen : provider) (raw : pystr) (b : pyobj)
  (errs : list pyobj) (tr : list event) :
  json_loads raw = inl b -> validate_request b = inr errs ->
  serve_analyze gen raw tr = (validation_error_response errs, tr).
Proof.
  intros Hb Hv. unfold serve_analyze.
  destruct raw as [|c raw'].
  - destruct json_loads_nil as [e He]. congruence.
  - rewrite Hb, Hv. reflexivity.
Qed.

(* ------------------------------------------------------------------ *)
(** ** Claims *)


(** C3: the prompt sent to the provider holds the request's
    [unstructured_text] unchanged, between the line [---] above it and the
    line [---] below it. *)
Theorem prompt_contains_text_verbatim (gen : provider)
  (request : AnalysisRequest) (tr : list event) :
  exists pre post rest,
    snd (analyze_unstructured_data gen request tr)
    = tr ++ Generate (pre ++ SEP_OPEN ++ unstructured_text request ++ SEP_CLOSE ++ post)
                     JSON_CONFIG :: rest.
Proof.
  destruct (analyze_trace gen request tr) as [rest [H _]].
  exists (NL
  ++ INDENT ++ u "Analyze the following unstructured text regarding financial matters, specifically in the context of '"
  ++ context request ++ u "'." ++ NL
  ++ INDENT ++ u "Your task is to act as an expert financial analyst. Extract key information, identify risks, and provide actionable recommendations." ++ NL
  ++ INDENT ++ NL
  ++ INDENT ++ u "Please provide your analysis strictly in the following JSON format:" ++ NL
  ++ INDENT ++ SCHEMA_TEXT ++ NL
  ++ NL
  ++ INDENT ++ u "Here is the text to analyze:" ++ NL
  ++ INDENT).
  exists (NL ++ INDENT), rest.
  rewrite H. unfold build_prompt, SEP_OPEN, SEP_CLOSE.
  repeat rewrite <- app_assoc. reflexivity.
Qed.

(** C9: one request calls the provider once: the handler exactly once (with
    the prompt), and the whole [POST /analyze] route at most once (never
    when the body is rejected); there is no second call after a failure. *)
Theorem provider_called_at_most_once (gen : provider) (raw : pystr)
  (tr : list event) :
  (forall request, exists rest,
      snd (analyze_unstructured_data gen request tr)
      = tr ++ Generate (build_prompt request) JSON_CONFIG :: rest
      /\ count_generate rest = 0)
  /\ (exists new, snd (serve_analyze gen raw tr) = tr ++ new
                  /\ (count_generate new <= 1)%nat).
Proof.
  split; [intros request; apply analyze_trace|].
  destruct raw as [|c raw'].
  - exists []. rewrite app_nil_r. split; [reflexivity | unfold count_generate; simpl; lia].
  - destruct (json_loads (c :: raw')) as [b|e] eqn:Hb.
    + destruct (validate_request b) as [request|errs] eqn:Hv.
      * rewrite (serve_analyze_valid gen _ b request tr Hb Hv).
        destruct (analyze_trace gen request tr) as [rest [Ht Hn]].
        exists (Generate (build_prompt request) JSON_CONFIG :: rest).
        destruct (analyze_unstructured_data gen request tr) as [[r|e] tr'];
          simpl in Ht |- *; rewrite Ht; split; try reflexivity;
          unfold count_generate in *; simpl; lia.
      * rewrite (serve_analyze_invalid gen _ b errs tr Hb Hv).
        exists []. rewrite app_nil_r. split; [reflexivity | unfold count_generate; simpl; lia].
    + exists []. rewrite app_nil_r. split; [|unfold count_generate; simpl; lia].
      unfold serve_analyze. rewrite Hb. destruct e; reflexivity.
Qed.

Lemma loads_1e400 : json_loads (u "1e400") = inl (PFloat (PInf false)).
Proof. vm_compute. reflexivity. Qed.

Lemma loads_summary_1e400 :
  json_loads (uq "{'summary':1e400}") = inl (PDict [kv "summary" (PFloat (PInf false))]).
Proof. vm_compute. reflexivity. Qed.

(** The handler when the provider answers with a text that parses. *)
Lemma analyze_on_parsed (text : pystr) (j : pyobj) (request : AnalysisRequest)
  (tr : list event) :
  json_loads text = inl j ->
  analyze_unstructured_data (const_provider text) request tr
  = match JSONResponse_new j 200 (tr ++ [Generate (build_prompt request) JSON_CONFIG]) with
    | (Ok r, tr') => (Ok r, tr')
    | (Raise e, tr') =>
        (Raise (HTTPException 500 (ERROR_PREFIX ++ py_str e)),
         tr' ++ [Print (u "An error occurred: " ++ py_str e)])
    end.
Proof.
  intros Hj. rewrite analyze_cases.
  unfold analyze_try_body, bind, generate_content_async, const_provider, of_sum.
  rewrite Hj. reflexivity.
Qed.

(** C1 (fails): the provider's text ["1e400"] is valid JSON and [json.loads]
    parses it (to [inf]); [JSONResponse] refuses to render that value, so
    the request gets the 500 error instead of a 200 with the value. *)
Theorem analyze_valid_json_overflow_gives_500 (request : AnalysisRequest)
  (tr : list event) :
  json_loads (u "1e400") = inl (PFloat (PInf false))
  /\ analyze_unstructured_data (const_provider (u "1e400")) request tr
     = (Raise (HTTPException 500
                 (ERROR_PREFIX ++ u "Out of range float values are not JSON compliant")),
        tr ++ [Generate (build_prompt request) JSON_CONFIG;
               Print (u "An error occurred: Out of range float values are not JSON compliant")]).
Proof.
  split; [exact loads_1e400|].
  rewrite (analyze_on_parsed _ _ request tr loads_1e400).
  simpl. rewrite <- app_assoc. reflexivity.
Qed.

(** C5 (fails): the provider call succeeds and its text parses as JSON,
    yet the outcome is the error: an object whose only field holds a number
    beyond the double range. *)
Theorem analyze_parseable_output_can_fail (request : AnalysisRequest)
  (tr : list event) :
  json_loads (uq "{'summary':1e400}") = inl (PDict [kv "summary" (PFloat (PInf false))])
  /\ exists e tr',
       analyze_unstructured_data (const_provider (uq "{'summary':1e400}")) request tr
       = (Raise e, tr').
Proof.
  split; [exact loads_summary_1e400|].
  rewrite (analyze_on_parsed _ _ request tr loads_summary_1e400).
  simpl. eexists _, _. reflexivity.
Qed.

Definition SAMPLE_REQUEST : AnalysisRequest :=
  {| unstructured_text := u "Farmer took a 50000 INR loan at 12% interest.";
     context := DEFAULT_CONTEXT |}.




Lemma validate_text_default (kvs : list (pystr * pyobj)) (t : pystr) :
  dict_get (u "unstructured_text") kvs = Some (PStr t) ->
  dict_get (u "context") kvs = None ->
  validate_request (PDict kvs) = inl {| unstructured_text := t; context := DEFAULT_CONTEXT |}.
Proof.
  intros Ht Hc. unfold validate_request, validate_str_field. rewrite Ht, Hc. reflexivity.
Qed.

Lemma validate_text_context (kvs : list (pystr * pyobj)) (t c : pystr) :
  dict_get (u "unstructured_text") kvs = Some (PStr t) ->
  dict_get (u "context") kvs = Some (PStr c) ->
  validate_request (PDict kvs) = inl {| unstructured_text := t; context := c |}.
Proof.
  intros Ht Hc. unfold validate_request, validate_str_field. rewrite Ht, Hc. reflexivity.
Qed.

Lemma prompt_context_slot (request : AnalysisRequest) :
  exists post, build_prompt request = PROMPT_HEAD ++ context request ++ u "'." ++ post.
Proof.
  eexists. unfold build_prompt, PROMPT_HEAD. repeat rewrite <- app_assoc. reflexivity.
Qed.

Lemma served_prompt (gen : provider) (raw : pystr) (b : pyobj)
  (request : AnalysisRequest) (tr : list event) :
  json_loads raw = inl b -> validate_request b = inl request ->
  exists post rest,
    snd (serve_analyze gen raw tr)
    = tr ++ Generate (PROMPT_HEAD ++ context request ++ u "'." ++ post) JSON_CONFIG :: rest.
Proof.
  intros Hb Hv. rewrite (serve_analyze_valid gen raw b request tr Hb Hv).
  destruct (analyze_trace gen request tr) as [rest [Ht _]].
  destruct (prompt_context_slot request) as [post Hp].
  exists post, rest. rewrite <- Hp, <- Ht.
  destruct (analyze_unstructured_data gen request tr) as [[r|e] tr']; reflexivity.
Qed.





Definition API_KEY_VAR : pystr := u "GEMINI_API_KEY".
Definition MISSING_KEY : exn := ValueError (u "GEMINI_API_KEY environment variable not set.").

(** C7 (fails): the variable is present but empty, and startup still
    raises the [ValueError], so no request is served. *)
Lemma startup_empty_key_fails :
  getenv [(API_KEY_VAR, [])] API_KEY_VAR = Some []
  /\ startup [(API_KEY_VAR, [])] = Raise MISSING_KEY
  /\ run [(API_KEY_VAR, [])] (fun _ => const_provider (u "{}")) [GetRoot]
     = (Raise MISSING_KEY, []).
Proof. split; [|split]; reflexivity. Qed.

(** C7, as the code has it: when [GEMINI_API_KEY] is absent or empty,
    startup raises the [ValueError] and the process serves nothing; when it
    holds a non-empty value, startup proceeds with that key. *)
Theorem startup_requires_nonempty_key (env : environ) :
  ((getenv env API_KEY_VAR = None \/ getenv env API_KEY_VAR = Some []) ->
     startup env = Raise MISSING_KEY
     /\ forall gen reqs, run env gen reqs = (Raise MISSING_KEY, []))
  /\ (forall k, getenv env API_KEY_VAR = Some k -> k <> [] ->
        startup env = Ok {| configured_api_key := k |}).
Proof.
  assert (Hs : (getenv env API_KEY_VAR = None \/ getenv env API_KEY_VAR = Some []) ->
               startup env = Raise MISSING_KEY).
  { intros [H|H]; unfold startup; fold API_KEY_VAR; rewrite H; reflexivity. }
  split.
  - intros H. split; [exact (Hs H)|].
    intros gen reqs. unfold run. rewrite (Hs H). reflexivity.
  - intros k H Hk. unfold startup. fold API_KEY_VAR. rewrite H.
    destruct k as [|c k']; [congruence|reflexivity].
Qed.

Lemma serve_all_root (gen : provider) (reqs : list http_request) (tr : list event)
  (i : nat) :
  nth_error reqs i = Some GetRoot ->
  nth_error (fst (serve_all gen reqs tr)) i = Some ROOT_RESPONSE.
Proof.
  revert tr i. induction reqs as [|r rs IH]; intros tr i H.
  - destruct i; discriminate.
  - simpl. destruct (serve gen r tr) as [resp tr'] eqn:Er.
    destruct (serve_all gen rs tr') as [resps tr''] eqn:Ea.
    destruct i as [|i]; simpl in H |- *.
    + inversion H; subst. simpl in Er. inversion Er; reflexivity.
    + specialize (IH tr' i H). rewrite Ea in IH. exact IH.
Qed.

(** C8: [GET /] answers 200 with [{status: "Agent is running"}] from
    every state: whatever the provider, whatever happened before, leaving
    the trace unchanged (no effect), and in a running process for every
    [GET /] among the requests, whatever the other requests did. *)
Theorem root_always_running (gen : provider) (tr : list event) :
  read_root tr = (Ok (PDict [kv "status" (S_ "Agent is running")]), tr)
  /\ serve gen GetRoot tr = (ROOT_RESPONSE, tr)
  /\ (forall env (mk : app_config -> provider) reqs resps tr' i,
        run env mk reqs = (Ok resps, tr') ->
        nth_error reqs i = Some GetRoot ->
        nth_error resps i = Some ROOT_RESPONSE).
Proof.
  split; [reflexivity|]. split; [reflexivity|].
  intros env mk reqs resps tr' i Hr Hi. unfold run in Hr.
  destruct (startup env) as [cfg|e]; [|discriminate].
  pose proof (serve_all_root (mk cfg) reqs [] i Hi) as H.
  destruct (serve_all (mk cfg) reqs []) as [rs tr0].
  inversion Hr; subst. exact H.
Qed.

(* ------------------------------------------------------------------ *)
(** ** Further properties of the handler and the prompt *)

(** The handler logs exactly when it fails: on success the only event is
    the provider call; on failure the provider call is followed by one
    [print] whose text carries the same [str(e)] as the 500 detail. *)
Theorem analyze_logs_iff_fails (gen : provider) (request : AnalysisRequest)
  (tr : list event) :
  (forall r tr', analyze_unstructured_data gen request tr = (Ok r, tr') ->
     tr' = tr ++ [Generate (build_prompt request) JSON_CONFIG])
  /\ (forall e tr', analyze_unstructured_data gen request tr = (Raise e, tr') ->
       exists e0,
         e = HTTPException 500 (ERROR_PREFIX ++ py_str e0)
         /\ tr' = tr ++ [Generate (build_prompt request) JSON_CONFIG;
                         Print (u "An error occurred: " ++ py_str e0)]).
Proof.
  pose proof (try_body_trace gen request tr) as Ht.
  rewrite analyze_cases.
  destruct (analyze_try_body gen request tr) as [[r|e] tr0]; simpl in Ht; subst tr0.
  - split; [intros r' tr' H; inversion H; reflexivity | intros e tr' H; discriminate].
  - split; [intros r' tr' H; discriminate|].
    intros e' tr' H. inversion H; subst. exists e. split; [reflexivity|].
    rewrite <- app_assoc. reflexivity.
Qed.

(** The handler consults the provider once only: two providers that give
    the same answer to that call (same history, prompt and configuration)
    yield the same outcome and the same events. *)
Theorem analyze_depends_only_on_provider_answer (gen1 gen2 : provider)
  (request : AnalysisRequest) (tr : list event) :
  gen1 tr (build_prompt request) JSON_CONFIG = gen2 tr (build_prompt request) JSON_CONFIG ->
  analyze_unstructured_data gen1 request tr = analyze_unstructured_data gen2 request tr.
Proof.
  intros H. unfold analyze_unstructured_data, try_except, analyze_try_body, bind,
    generate_content_async.
  rewrite H. reflexivity.
Qed.

Definition history_provider : provider :=
  fun h _ _ => match h with [] => GenText (u "{}") | _ => GenRaise (ProviderError (u "quota")) end.

Lemma analyze_depends_only_on_provider_answer_witness :
  const_provider (u "{}") [] (build_prompt SAMPLE_REQUEST) JSON_CONFIG
    = history_provider [] (build_prompt SAMPLE_REQUEST) JSON_CONFIG
  /\ analyze_unstructured_data (const_provider (u "{}")) SAMPLE_REQUEST []
     = analyze_unstructured_data history_provider SAMPLE_REQUEST [].
Proof.
  split; [reflexivity|].
  apply analyze_depends_only_on_provider_answer. reflexivity.
Defined.

Lemma app_same_length_inv {A} (a1 a2 b1 b2 : list A) :
  a1 ++ b1 = a2 ++ b2 -> List.length a1 = List.length a2 -> a1 = a2 /\ b1 = b2.
Proof.
  revert a2. induction a1 as [|x a1 IH]; intros [|y a2] H Hl;
    simpl in *; try discriminate; [split; auto|].
  inversion H; subst. destruct (IH a2 H2 ltac:(lia)) as [-> ->]. split; reflexivity.
Qed.

(** The text of the prompt after the context value, up to the request's
    text. *)
Definition PROMPT_MIDDLE : pystr :=
  u "'." ++ NL
  ++ INDENT ++ u "Your task is to act as an expert financial analyst. Extract key information, identify risks, and provide actionable recommendations." ++ NL
  ++ INDENT ++ NL
  ++ INDENT ++ u "Please provide your analysis strictly in the following JSON format:" ++ NL
  ++ INDENT ++ SCHEMA_TEXT ++ NL
  ++ NL
  ++ INDENT ++ u "Here is the text to analyze:" ++ NL
  ++ INDENT ++ u "---" ++ NL
  ++ INDENT.

Definition PROMPT_TAIL : pystr := NL ++ INDENT ++ u "---" ++ NL ++ INDENT.

Lemma build_prompt_parts (request : AnalysisRequest) :
  build_prompt request
  = PROMPT_HEAD ++ context request ++ PROMPT_MIDDLE ++ unstructured_text request
      ++ PROMPT_TAIL.
Proof.
  unfold build_prompt, PROMPT_HEAD, PROMPT_MIDDLE, PROMPT_TAIL.
  repeat rewrite <- app_assoc. reflexivity.
Qed.

(** The prompt determines the request among requests whose contexts have
    the same length (in particular, among requests with the default
    context): no two different texts give the same prompt. *)
Theorem build_prompt_injective (r1 r2 : AnalysisRequest) :
  build_prompt r1 = build_prompt r2 ->
  List.length (context r1) = List.length (context r2) ->
  r1 = r2.
Proof.
  intros H Hl. rewrite !build_prompt_parts in H.
  apply app_inv_head in H.
  destruct (app_same_length_inv _ _ _ _ H Hl) as [Hc H'].
  apply app_inv_head in H'. apply app_inv_tail in H'.
  destruct r1, r2; simpl in *; subst; reflexivity.
Qed.

Lemma build_prompt_injective_witness :
  build_prompt SAMPLE_REQUEST = build_prompt SAMPLE_REQUEST
  /\ List.length (context SAMPLE_REQUEST) = List.length (context SAMPLE_REQUEST)
  /\ SAMPLE_REQUEST = SAMPLE_REQUEST.
Proof.
  split; [reflexivity|]. split; [reflexivity|].
  apply build_prompt_injective; reflexivity.
Defined.

(** The prompt is a fixed template of 1195 characters plus the context
    and the text: neither is truncated, escaped or repeated. *)
Theorem build_prompt_length (request : AnalysisRequest) :
  List.length (build_prompt request)
  = (1195 + List.length (context request) + List.length (unstructured_text request))%nat.
Proof.
  rewrite build_prompt_parts. rewrite !length_app.
  assert (Hf : (List.length PROMPT_HEAD + List.length PROMPT_MIDDLE
                + List.length PROMPT_TAIL)%nat = 1195%nat) by (vm_compute; reflexivity).
  lia.
Qed.

(** The handler run on any history is the handler run on the empty one,
    with the provider fixed at its answer for that history: the events it
    adds and its outcome depend on the past only through the provider. *)
Lemma analyze_frame (gen : provider) (request : AnalysisRequest) (tr : list event) :
  analyze_unstructured_data gen request tr
  = (fst (analyze_unstructured_data (fun _ => gen tr) request []),
     tr ++ snd (analyze_unstructured_data (fun _ => gen tr) request [])).
Proof.
  unfold analyze_unstructured_data, try_except, analyze_try_body, bind,
    generate_content_async, of_sum, emit, raise, ret.
  destruct (gen tr (build_prompt request) JSON_CONFIG) as [t|e]; simpl;
    [|rewrite <- app_assoc; reflexivity].
  destruct (json_loads t) as [j|e]; simpl; [|rewrite <- app_assoc; reflexivity].
  unfold JSONResponse_new, raise, ret.
  destruct (has_nonfinite j); simpl; [rewrite <- app_assoc; reflexivity|].
  destruct (first_surrogate j); simpl; [rewrite <- app_assoc; reflexivity|reflexivity].
Qed.

(** With a provider whose answers do not depend on the history, the
    service keeps no state between requests: a request gets the same
    response and adds the same events whatever was served before. *)
Theorem serve_history_independent (gen : provider) (req : http_request)
  (tr1 tr2 : list event) :
  (forall h1 h2 p c, gen h1 p c = gen h2 p c) ->
  fst (serve gen req tr1) = fst (serve gen req tr2)
  /\ exists new, snd (serve gen req tr1) = tr1 ++ new /\ snd (serve gen req tr2) = tr2 ++ new.
Proof.
  intros Hg.
  assert (Ha : forall request,
             analyze_unstructured_data (fun _ => gen tr1) request []
             = analyze_unstructured_data (fun _ => gen tr2) request []).
  { intros request. apply analyze_depends_only_on_provider_answer. apply Hg. }
  destruct req as [raw|]; simpl.
  - unfold serve_analyze.
    destruct raw as [|c raw'].
    + split; [reflexivity|]. exists []. rewrite !app_nil_r. split; reflexivity.
    + destruct (json_loads (c :: raw')) as [b|e].
      * destruct (validate_request b) as [request|errs].
        -- rewrite (analyze_frame gen request tr1), (analyze_frame gen request tr2), Ha.
           destruct (analyze_unstructured_data (fun _ => gen tr2) request [])
             as [[r|e] new]; simpl; (split; [reflexivity|]); exists new;
             split; reflexivity.
        -- split; [reflexivity|]. exists []. rewrite !app_nil_r. split; reflexivity.
      * destruct e; (split; [reflexivity|]); exists []; rewrite !app_nil_r;
          split; reflexivity.
  - split; [reflexivity|]. exists []. rewrite !app_nil_r. split; reflexivity.
Qed.

Lemma serve_history_independent_witness :
  (forall h1 h2 p c, const_provider (u "{}") h1 p c = const_provider (u "{}") h2 p c)
  /\ fst (serve (const_provider (u "{}")) (PostAnalyze (uq "{'unstructured_text':'hi'}")) [])
     = fst (serve (const_provider (u "{}")) (PostAnalyze (uq "{'unstructured_text':'hi'}"))
              [Print (u "x")])
  /\ exists new,
       snd (serve (const_provider (u "{}")) (PostAnalyze (uq "{'unstructured_text':'hi'}")) [])
       = [] ++ new
       /\ snd (serve (const_provider (u "{}")) (PostAnalyze (uq "{'unstructured_text':'hi'}"))
                [Print (u "x")]) = [Print (u "x")] ++ new.
Proof.
  assert (Hg : forall h1 h2 p c, const_provider (u "{}") h1 p c = const_provider (u "{}") h2 p c)
    by reflexivity.
  split; [exact Hg|].
  apply serve_history_independent. exact Hg.
Defined.

(** Validation of [AnalysisRequest] looks at the two declared fields only:
    two bodies that agree on [unstructured_text] and [context] validate to
    the same request, so any other field is ignored. *)
Theorem validate_request_only_declared_fields (kvs1 kvs2 : list (pystr * pyobj))
  (request : AnalysisRequest) :
  dict_get (u "unstructured_text") kvs1 = dict_get (u "unstructured_text") kvs2 ->
  dict_get (u "context") kvs1 = dict_get (u "context") kvs2 ->
  validate_request (PDict kvs1) = inl request ->
  validate_request (PDict kvs2) = inl request.
Proof.
  intros Ht Hc H. unfold validate_request, validate_str_field in *.
  rewrite <- Ht, <- Hc.
  destruct (dict_get (u "unstructured_text") kvs1) as [[| | | | s | |]|];
    destruct (dict_get (u "context") kvs1) as [[| | | | c | |]|];
    simpl in *; congruence.
Qed.

Lemma validate_request_only_declared_fields_witness :
  validate_request (PDict [kv "unstructured_text" (S_ "hi"); kv "extra" (PInt 1)])
  = inl {| unstructured_text := u "hi"; context := DEFAULT_CONTEXT |}.
Proof.
  apply (validate_request_only_declared_fields [kv "unstructured_text" (S_ "hi")]);
    reflexivity.
Defined.


(* ------------------------------------------------------------------ *)
(** ** [json.dumps] and [json.loads] on strings *)

Lemma hex_digit_val (d : Z) :
  (0 <= d < 16)%Z -> is_hex (hex_digit d) = true /\ hex_val (hex_digit d) = d.
Proof.
  intros Hd.
  assert (d = 0 \/ d = 1 \/ d = 2 \/ d = 3 \/ d = 4 \/ d = 5 \/ d = 6 \/ d = 7 \/
          d = 8 \/ d = 9 \/ d = 10 \/ d = 11 \/ d = 12 \/ d = 13 \/ d = 14 \/ d = 15)%Z
    as Hcases by lia.
  repeat destruct Hcases as [->|Hcases]; [..|subst]; split; reflexivity.
Qed.

Lemma land_15 (n : Z) : Z.land n 15 = (n mod 16)%Z.
Proof. change 15%Z with (Z.ones 4). rewrite Z.land_ones by lia. reflexivity. Qed.

Lemma hex4_digits (c : Z) :
  hex4 c = [hex_digit ((c / 4096) mod 16); hex_digit ((c / 256) mod 16);
            hex_digit ((c / 16) mod 16); hex_digit (c mod 16)]%Z.
Proof.
  unfold hex4. cbn [map]. rewrite !Z.shiftr_div_pow2 by lia. rewrite !land_15.
  change (4 * 0)%Z with 0%Z. rewrite Z.pow_0_r, Z.div_1_r. reflexivity.
Qed.

(** [\uXXXX] as written by the encoder reads back as the same code unit. *)
Lemma hex4_roundtrip (c : Z) :
  (0 <= c < 65536)%Z ->
  exists a b c1 d, hex4 c = [a; b; c1; d] /\ hex4_value a b c1 d = Some c.
Proof.
  intros Hc. rewrite hex4_digits. do 4 eexists. split; [reflexivity|].
  destruct (hex_digit_val ((c / 4096) mod 16)) as [H3 V3]; [apply Z.mod_pos_bound; lia|].
  destruct (hex_digit_val ((c / 256) mod 16)) as [H2 V2]; [apply Z.mod_pos_bound; lia|].
  destruct (hex_digit_val ((c / 16) mod 16)) as [H1 V1]; [apply Z.mod_pos_bound; lia|].
  destruct (hex_digit_val (c mod 16)) as [H0 V0]; [apply Z.mod_pos_bound; lia|].
  unfold hex4_value. rewrite H3, H2, H1, H0, V3, V2, V1, V0. cbn [andb]. cbv iota. f_equal.
  assert (E3 : ((c / 4096) mod 16 = c / 4096)%Z).
  { apply Z.mod_small. split; [apply Z.div_pos; lia|apply Z.div_lt_upper_bound; lia]. }
  assert (E2 : (c / 256 = 16 * (c / 4096) + (c / 256) mod 16)%Z).
  { replace (c / 4096)%Z with (c / 256 / 16)%Z
      by (rewrite Z.div_div by lia; reflexivity).
    apply Z.div_mod. lia. }
  assert (E1 : (c / 16 = 16 * (c / 256) + (c / 16) mod 16)%Z).
  { replace (c / 256)%Z with (c / 16 / 16)%Z
      by (rewrite Z.div_div by lia; reflexivity).
    apply Z.div_mod. lia. }
  assert (E0 : (c = 16 * (c / 16) + c mod 16)%Z) by (apply Z.div_mod; lia).
  rewrite E3. lia.
Qed.

(** Whether a text starts with a [\u] escape of a low surrogate. *)
Definition starts_low_escape (T : pystr) : bool :=
  match T with
  | x :: y :: T' =>
      (x =? 92)%Z && (y =? 117)%Z &&
      match T' with
      | a :: b :: c :: d :: _ =>
          match hex4_value a b c d with Some w => is_low_surrogate w | None => true end
      | _ => false
      end
  | _ => false
  end.

Definition valid_code_point (c : Z) : Prop := (0 <= c <= 1114111)%Z.

(** No high surrogate directly followed by a low one (such a pair would be
    read back as one character). *)
Fixpoint no_split_pair (s : pystr) : bool :=
  match s with
  | a :: ((b :: _) as t) =>
      negb (is_high_surrogate a && is_low_surrogate b) && no_split_pair t
  | _ => true
  end.

Lemma surrogate_halves (c : Z) :
  (65536 <= c <= 1114111)%Z ->
  let v := (c - 65536)%Z in
  let hi := (55296 + Z.shiftr v 10)%Z in
  let lo := (56320 + Z.land v 1023)%Z in
  (55296 <= hi <= 56319)%Z /\ (56320 <= lo <= 57343)%Z
  /\ (65536 + (hi - 55296) * 1024 + (lo - 56320) = c)%Z.
Proof.
  intros Hc v hi lo.
  assert (Hs : (Z.shiftr v 10 = v / 1024)%Z) by (rewrite Z.shiftr_div_pow2 by lia; reflexivity).
  assert (Hl : (Z.land v 1023 = v mod 1024)%Z)
    by (change 1023%Z with (Z.ones 10); rewrite Z.land_ones by lia; reflexivity).
  pose proof (Z.div_mod v 1024 ltac:(lia)) as Hd.
  pose proof (Z.mod_pos_bound v 1024 ltac:(lia)) as Hm.
  subst hi lo. rewrite Hs, Hl. unfold v in *. lia.
Qed.

Ltac zbool :=
  repeat match goal with
  | H : (_ =? _)%Z = true |- _ => apply Z.eqb_eq in H
  | H : (_ =? _)%Z = false |- _ => apply Z.eqb_neq in H
  | H : (_ <=? _)%Z = true |- _ => apply Z.leb_le in H
  | H : (_ <=? _)%Z = false |- _ => apply Z.leb_gt in H
  | H : (_ <? _)%Z = true |- _ => apply Z.ltb_lt in H
  | H : (_ <? _)%Z = false |- _ => apply Z.ltb_ge in H
  | H : (_ && _) = true |- _ => apply andb_true_iff in H; destruct H
  end.

Lemma is_low_false (c : Z) : (c < 56320)%Z \/ (57343 < c)%Z -> is_low_surrogate c = false.
Proof.
  intros H. unfold is_low_surrogate.
  destruct (56320 <=? c)%Z eqn:E1; destruct (c <=? 57343)%Z eqn:E2; zbool; simpl; auto; lia.
Qed.

Lemma is_high_false (c : Z) : (c < 55296)%Z \/ (56319 < c)%Z -> is_high_surrogate c = false.
Proof.
  intros H. unfold is_high_surrogate.
  destruct (55296 <=? c)%Z eqn:E1; destruct (c <=? 56319)%Z eqn:E2; zbool; simpl; auto; lia.
Qed.

Lemma is_low_true (c : Z) : (56320 <= c <= 57343)%Z -> is_low_surrogate c = true.
Proof.
  intros H. unfold is_low_surrogate.
  rewrite (proj2 (Z.leb_le _ _) (proj1 H)), (proj2 (Z.leb_le _ _) (proj2 H)). reflexivity.
Qed.

Lemma is_high_true (c : Z) : (55296 <= c <= 56319)%Z -> is_high_surrogate c = true.
Proof.
  intros H. unfold is_high_surrogate.
  rewrite (proj2 (Z.leb_le _ _) (proj1 H)), (proj2 (Z.leb_le _ _) (proj2 H)). reflexivity.
Qed.

(** Reading back one escaped character. *)
Lemma scan_str_step (doc : pystr) (q : nat) (c : Z) (T : pystr) (pos : nat)
  (acc : pystr) :
  valid_code_point c ->
  (is_high_surrogate c = true -> starts_low_escape T = false) ->
  scan_str doc q (escape_ascii_char c ++ T) pos acc
  = scan_str doc q T (pos + List.length (escape_ascii_char c)) (c :: acc).
Proof.
  intros Hv Hhi. unfold valid_code_point in Hv. unfold escape_ascii_char.
  destruct (c =? 34)%Z eqn:E34; [apply Z.eqb_eq in E34; subst; reflexivity|].
  destruct (c =? 92)%Z eqn:E92; [apply Z.eqb_eq in E92; subst; reflexivity|].
  destruct (c =? 10)%Z eqn:E10; [apply Z.eqb_eq in E10; subst; reflexivity|].
  destruct (c =? 13)%Z eqn:E13; [apply Z.eqb_eq in E13; subst; reflexivity|].
  destruct (c =? 9)%Z eqn:E9; [apply Z.eqb_eq in E9; subst; reflexivity|].
  destruct (c =? 8)%Z eqn:E8; [apply Z.eqb_eq in E8; subst; reflexivity|].
  destruct (c =? 12)%Z eqn:E12; [apply Z.eqb_eq in E12; subst; reflexivity|].
  destruct ((32 <=? c)%Z && (c <=? 126)%Z) eqn:Ep.
  { simpl. rewrite E34, E92.
    assert (Hlt : (c <? 32)%Z = false) by (zbool; apply Z.ltb_ge; lia).
    rewrite Hlt, Nat.add_1_r. reflexivity. }
  destruct (c <? 65536)%Z eqn:Eb.
  { apply Z.ltb_lt in Eb.
    destruct (hex4_roundtrip c ltac:(lia)) as [a [b [c1 [d [Hh Hx]]]]].
    rewrite Hh. simpl. rewrite Hx.
    destruct (is_high_surrogate c) eqn:Ehi; [|reflexivity].
    specialize (Hhi eq_refl).
    destruct T as [|x [|y [|a2 [|b2 [|c2 [|d2 t3]]]]]]; try reflexivity.
    unfold starts_low_escape in Hhi.
    destruct ((x =? 92)%Z && (y =? 117)%Z) eqn:Exy; [|reflexivity].
    simpl in Hhi. destruct (hex4_value a2 b2 c2 d2) as [w|] eqn:Ew; [|discriminate].
    rewrite Hhi. reflexivity. }
  apply Z.ltb_ge in Eb.
  destruct (surrogate_halves c ltac:(lia)) as [Hhr [Hlr Hcomb]]. cbv zeta in *.
  remember (55296 + Z.shiftr (c - 65536) 10)%Z as hi eqn:Ehi.
  remember (56320 + Z.land (c - 65536) 1023)%Z as lo eqn:Elo.
  destruct (hex4_roundtrip hi ltac:(lia)) as [a [b [c1 [d [Hh Hx]]]]].
  destruct (hex4_roundtrip lo ltac:(lia)) as [a' [b' [c1' [d' [Hh' Hx']]]]].
  rewrite Hh, Hh'. simpl. rewrite Hx, (is_high_true hi Hhr). simpl.
  rewrite Hx', (is_low_true lo Hlr).
  unfold join_surrogates. rewrite Hcomb. reflexivity.
Qed.

(** An escaped character starts with a [\u] escape of a low surrogate
    exactly when it is one. *)
Lemma starts_low_escape_esc (c : Z) (X : pystr) :
  valid_code_point c ->
  starts_low_escape (escape_ascii_char c ++ X) = is_low_surrogate c.
Proof.
  intros Hv. unfold valid_code_point in Hv. unfold escape_ascii_char.
  destruct (c =? 34)%Z eqn:E34; [apply Z.eqb_eq in E34; subst; reflexivity|].
  destruct (c =? 92)%Z eqn:E92; [apply Z.eqb_eq in E92; subst; reflexivity|].
  destruct (c =? 10)%Z eqn:E10; [apply Z.eqb_eq in E10; subst; reflexivity|].
  destruct (c =? 13)%Z eqn:E13; [apply Z.eqb_eq in E13; subst; reflexivity|].
  destruct (c =? 9)%Z eqn:E9; [apply Z.eqb_eq in E9; subst; reflexivity|].
  destruct (c =? 8)%Z eqn:E8; [apply Z.eqb_eq in E8; subst; reflexivity|].
  destruct (c =? 12)%Z eqn:E12; [apply Z.eqb_eq in E12; subst; reflexivity|].
  destruct ((32 <=? c)%Z && (c <=? 126)%Z) eqn:Ep.
  { apply andb_true_iff in Ep. destruct Ep as [Ep1 Ep2].
    apply Z.leb_le in Ep1. apply Z.leb_le in Ep2.
    rewrite is_low_false by lia.
    destruct X as [|y X]; simpl; [reflexivity|]. rewrite E92. reflexivity. }
  destruct (c <? 65536)%Z eqn:Eb.
  { apply Z.ltb_lt in Eb.
    destruct (hex4_roundtrip c ltac:(lia)) as [a [b [c1 [d [Hh Hx]]]]].
    rewrite Hh. simpl. rewrite Hx. reflexivity. }
  apply Z.ltb_ge in Eb.
  destruct (surrogate_halves c ltac:(lia)) as [Hhr [Hlr Hcomb]]. cbv zeta in *.
  remember (55296 + Z.shiftr (c - 65536) 10)%Z as hi eqn:Ehi.
  destruct (hex4_roundtrip hi ltac:(lia)) as [a [b [c1 [d [Hh Hx]]]]].
  rewrite Hh. simpl. rewrite Hx.
  rewrite (is_low_false hi) by lia. rewrite (is_low_false c) by lia. reflexivity.
Qed.

Lemma scan_str_encoded (doc : pystr) (q : nat) (s rest : pystr) (pos : nat)
  (acc : pystr) :
  Forall valid_code_point s -> no_split_pair s = true ->
  scan_str doc q (flat_map escape_ascii_char s ++ 34%Z :: rest) pos acc
  = inl (rev acc ++ s, S (pos + List.length (flat_map escape_ascii_char s))).
Proof.
  revert pos acc. induction s as [|c s IH]; intros pos acc Hv Hp.
  - simpl. rewrite app_nil_r, Nat.add_0_r. reflexivity.
  - inversion Hv as [|? ? Hc Hs]; subst.
    assert (Hp' : no_split_pair s = true /\
                  (is_high_surrogate c = true ->
                   starts_low_escape (flat_map escape_ascii_char s ++ 34%Z :: rest) = false)).
    { destruct s as [|c2 s'].
      - split; [reflexivity|]. intros _. destruct rest; reflexivity.
      - simpl in Hp. apply andb_true_iff in Hp. destruct Hp as [Hn Hp]. split; [exact Hp|].
        intros Hh. simpl. rewrite <- app_assoc, starts_low_escape_esc.
        + rewrite Hh in Hn. simpl in Hn. apply negb_true_iff in Hn. exact Hn.
        + inversion Hs; assumption. }
    destruct Hp' as [Hp' Hhi].
    simpl. rewrite <- app_assoc, (scan_str_step doc q c _ pos acc Hc Hhi).
    rewrite (IH _ _ Hs Hp'). simpl. rewrite <- app_assoc, length_app. simpl.
    f_equal. f_equal. lia.
Qed.

(** [json.dumps] of a string, read back by [json.loads], gives the same
    string, for every string of code points in which no high surrogate is
    directly followed by a low one. *)
Theorem json_string_roundtrip (s : pystr) :
  Forall valid_code_point s -> no_split_pair s = true ->
  dumps (PStr s) = Some (encode_basestring_ascii s)
  /\ json_loads (encode_basestring_ascii s) = inl (PStr s).
Proof.
  intros Hv Hp. split; [reflexivity|].
  unfold json_loads, encode_basestring_ascii. simpl app.
  cbn [starts_with]. unfold ws_end. cbn [skipn ws_len is_ws]. simpl Nat.add.
  cbn [scan_once nth_error]. simpl Z.eqb. cbv iota beta.
  unfold scan_string_at. cbn [skipn].
  rewrite (scan_str_encoded _ 0 s [] 1 [] Hv Hp). simpl rev. simpl app.
  rewrite skipn_all2 by (simpl; rewrite length_app; simpl; lia).
  simpl ws_len. simpl List.length. rewrite length_app. simpl List.length.
  replace (S (1 + List.length (flat_map escape_ascii_char s)) + 0)%nat
    with (S (List.length (flat_map escape_ascii_char s) + 1))%nat by lia.
  rewrite Nat.eqb_refl. reflexivity.
Qed.

Lemma json_string_roundtrip_witness :
  (Forall valid_code_point [34; 10; 233; 128512]%Z
   /\ no_split_pair [34; 10; 233; 128512]%Z = true)
  /\ (dumps (PStr [34; 10; 233; 128512]%Z)
        = Some (encode_basestring_ascii [34; 10; 233; 128512]%Z)
      /\ json_loads (encode_basestring_ascii [34; 10; 233; 128512]%Z)
         = inl (PStr [34; 10; 233; 128512]%Z)).
Proof.
  assert (Hv : Forall valid_code_point [34; 10; 233; 128512]%Z).
  { repeat constructor; unfold valid_code_point; lia. }
  assert (Hp : no_split_pair [34; 10; 233; 128512]%Z = true) by reflexivity.
  split; [split; assumption|].
  apply (json_string_roundtrip [34; 10; 233; 128512]%Z Hv Hp).
Defined.

Lemma ws_len_all (s : pystr) :
  Forall (fun c => is_ws c = true) s -> ws_len s = List.length s.
Proof.
  induction 1 as [|c s Hc _ IH]; [reflexivity|]. simpl. rewrite Hc, IH. reflexivity.
Qed.

(** A document made only of whitespace (the empty one included) is
    rejected by [json.loads] with ["Expecting value"] at its end. *)
Theorem loads_whitespace_only (s : pystr) :
  Forall (fun c => is_ws c = true) s ->
  json_loads s = inr (JSONDecodeError (u "Expecting value") s (List.length s)).
Proof.
  intros Hw. unfold json_loads.
  assert (Hb : starts_with [65279%Z] s = false).
  { destruct Hw as [|c s' Hc _]; [reflexivity|]. cbn [starts_with].
    unfold is_ws in Hc. destruct (65279 =? c)%Z eqn:E; [|reflexivity].
    apply Z.eqb_eq in E. subst. discriminate Hc. }
  rewrite Hb. unfold ws_end. simpl skipn. rewrite (ws_len_all s Hw). simpl.
  rewrite (proj2 (nth_error_None s (List.length s)) (le_n _)). reflexivity.
Qed.

Lemma loads_whitespace_only_witness :
  Forall (fun c => is_ws c = true) [32; 10; 9; 32]%Z
  /\ json_loads [32; 10; 9; 32]%Z
     = inr (JSONDecodeError (u "Expecting value") [32; 10; 9; 32]%Z 4).
Proof.
  assert (Hw : Forall (fun c => is_ws c = true) [32; 10; 9; 32]%Z) by (repeat constructor).
  split; [exact Hw|]. apply (loads_whitespace_only [32; 10; 9; 32]%Z Hw).
Defined.



(** When the model answers with nothing but whitespace, [json.loads]
    raises ["Expecting value"] at the end of the text, and the handler
    turns it into the 500 error carrying that message. *)
Theorem analyze_whitespace_answer (gen : provider) (request : AnalysisRequest)
  (tr : list event) (t : pystr) :
  Forall (fun c => is_ws c = true) t ->
  gen tr (build_prompt request) JSON_CONFIG = GenText t ->
  analyze_unstructured_data gen request tr
  = (Raise (HTTPException 500
       (ERROR_PREFIX ++ py_str (JSONDecodeError (u "Expecting value") t (List.length t)))),
     tr ++ [Generate (build_prompt request) JSON_CONFIG;
            Print (u "An error occurred: "
                   ++ py_str (JSONDecodeError (u "Expecting value") t (List.length t)))]).
Proof.
  intros Hw Hg. rewrite analyze_cases.
  unfold analyze_try_body, bind, generate_content_async, of_sum.
  rewrite Hg, (loads_whitespace_only t Hw). simpl. rewrite <- app_assoc. reflexivity.
Qed.

Lemma analyze_whitespace_answer_witness :
  (Forall (fun c => is_ws c = true) [10; 32]%Z
   /\ const_provider [10; 32]%Z [] (build_prompt {| unstructured_text := u "x"; context := DEFAULT_CONTEXT |}) JSON_CONFIG
      = GenText [10; 32]%Z)
  /\ analyze_unstructured_data (const_provider [10; 32]%Z) {| unstructured_text := u "x"; context := DEFAULT_CONTEXT |} []
     = (Raise (HTTPException 500
          (ERROR_PREFIX ++ py_str (JSONDecodeError (u "Expecting value") [10; 32]%Z 2))),
        [] ++ [Generate (build_prompt {| unstructured_text := u "x"; context := DEFAULT_CONTEXT |}) JSON_CONFIG;
               Print (u "An error occurred: "
                      ++ py_str (JSONDecodeError (u "Expecting value") [10; 32]%Z 2))]).
Proof.
  assert (Hw : Forall (fun c => is_ws c = true) [10; 32]%Z) by (repeat constructor).
  assert (Hg : const_provider [10; 32]%Z [] (build_prompt {| unstructured_text := u "x"; context := DEFAULT_CONTEXT |}) JSON_CONFIG
               = GenText [10; 32]%Z) by reflexivity.
  split; [split; [exact Hw | exact Hg]|].
  apply (analyze_whitespace_answer _ {| unstructured_text := u "x"; context := DEFAULT_CONTEXT |} [] [10; 32]%Z Hw Hg).
Defined.

(** Every dict inside a value has pairwise distinct keys. *)
Fixpoint keys_unique (o : pyobj) : Prop :=
  match o with
  | PList xs =>
      (fix go l := match l with [] => True | x :: t => keys_unique x /\ go t end) xs
  | PDict kvs =>
      NoDup (map fst kvs)
      /\ (fix go l := match l with
                      | [] => True
                      | (_, v) :: t => keys_unique v /\ go t
                      end) kvs
  | _ => True
  end.

Lemma keys_unique_list (xs : list pyobj) :
  keys_unique (PList xs) <-> Forall keys_unique xs.
Proof.
  induction xs as [|x xs IH]; simpl.
  - split; auto.
  - simpl in IH. rewrite Forall_cons_iff, IH. reflexivity.
Qed.

Lemma keys_unique_dict (kvs : list (pystr * pyobj)) :
  keys_unique (PDict kvs)
  <-> NoDup (map fst kvs) /\ Forall (fun kv => keys_unique (snd kv)) kvs.
Proof.
  simpl. apply and_iff_compat_l.
  induction kvs as [|[k v] kvs IH]; simpl.
  - split; auto.
  - rewrite Forall_cons_iff, IH. reflexivity.
Qed.

Lemma pystr_eqb_spec (a b : pystr) : pystr_eqb a b = true <-> a = b.
Proof.
  unfold pystr_eqb. destruct (list_eq_dec Z.eq_dec a b); split; congruence.
Qed.

Lemma dict_set_keys (k : pystr) (v : pyobj) (d : list (pystr * pyobj)) (k' : pystr) :
  In k' (map fst (dict_set k v d)) <-> k' = k \/ In k' (map fst d).
Proof.
  induction d as [|[k0 v0] d IH]; simpl.
  - intuition congruence.
  - destruct (pystr_eqb k k0) eqn:E; simpl.
    + apply pystr_eqb_spec in E. subst. intuition congruence.
    + rewrite IH. intuition congruence.
Qed.

(** Setting a key of a dict keeps its keys distinct and its values as
    they were, the set key apart. *)
Lemma dict_set_unique (k : pystr) (v : pyobj) (d : list (pystr * pyobj)) :
  keys_unique v -> keys_unique (PDict d) -> keys_unique (PDict (dict_set k v d)).
Proof.
  rewrite !keys_unique_dict. intros Hv [Hn Hf].
  induction d as [|[k0 v0] d IH]; simpl.
  - split; [constructor; [simpl; tauto|constructor]|constructor; auto].
  - inversion Hn as [|? ? Hnot Hn']; subst. inversion Hf as [|? ? Hv0 Hf']; subst.
    destruct (pystr_eqb k k0) eqn:E; simpl.
    + split; [constructor; assumption|constructor; assumption].
    + destruct (IH Hn' Hf') as [IHn IHf]. split.
      * constructor; [|exact IHn]. rewrite dict_set_keys. intros [Heq|Hin].
        -- rewrite (proj2 (pystr_eqb_spec k k0) (eq_sym Heq)) in E. discriminate.
        -- exact (Hnot Hin).
      * constructor; assumption.
Qed.

Lemma number_value_unique (lx : num_lexeme) : keys_unique (number_value lx).
Proof.
  unfold number_value. destruct (n_frac lx), (n_exp lx); exact I.
Qed.

Lemma scan_keys_unique (fuel : nat) (s : pystr) :
  (forall i o e, scan_once fuel s i = inl (o, e) -> keys_unique o)
  /\ (forall i acc o e, keys_unique (PDict acc) ->
        object_members fuel s i acc = inl (o, e) -> keys_unique o)
  /\ (forall i acc o e, keys_unique (PList acc) ->
        array_items fuel s i acc = inl (o, e) -> keys_unique o).
Proof.
  induction fuel as [|f [IHs [IHo IHa]]].
  - repeat split; intros; discriminate.
  - split; [|split].
    + intros i o e. simpl.
      destruct (nth_error s i) as [c|]; [|discriminate].
      destruct (c =? 34)%Z.
      { destruct (scan_string_at s i) as [[str e']|]; intros H; inversion H; exact I. }
      destruct (c =? 123)%Z.
      { destruct (char_is s (ws_end s (S i)) 125).
        - intros H; inversion H. simpl. split; [constructor|exact I].
        - apply IHo. simpl. split; [constructor|exact I]. }
      destruct (c =? 91)%Z.
      { destruct (char_is s (ws_end s (S i)) 93).
        - intros H; inversion H. exact I.
        - apply IHa. exact I. }
      repeat match goal with
             | |- (if ?b then _ else _) = _ -> _ => destruct b;
                 [intros H; inversion H; exact I|]
             end.
      destruct (match_number (skipn i s)) as [[lx n]|]; [|discriminate].
      intros H; inversion H. apply number_value_unique.
    + intros i acc o e Hacc. simpl.
      destruct (negb (char_is s i 34)); [discriminate|].
      destruct (scan_string_at s i) as [[key j]|]; [|discriminate].
      destruct (negb (char_is s (ws_end s j) 58)); [discriminate|].
      destruct (scan_once f s (ws_end s (S (ws_end s j)))) as [[v k]|] eqn:Ev;
        [|discriminate].
      assert (Hd : keys_unique (PDict (dict_set key v acc)))
        by exact (dict_set_unique _ _ _ (IHs _ _ _ Ev) Hacc).
      destruct (char_is s (ws_end s k) 125).
      { intros H; inversion H; subst; exact Hd. }
      destruct (char_is s (ws_end s k) 44); [|discriminate].
      apply IHo. exact Hd.
    + intros i acc o e Hacc. simpl.
      destruct (scan_once f s i) as [[v k]|] eqn:Ev; [|discriminate].
      assert (Hl : keys_unique (PList (acc ++ [v]))).
      { apply keys_unique_list. apply keys_unique_list in Hacc.
        apply Forall_app. split; [exact Hacc|]. constructor; [exact (IHs _ _ _ Ev)|constructor]. }
      destruct (char_is s (ws_end s k) 93).
      { intros H; inversion H; subst; exact Hl. }
      destruct (char_is s (ws_end s k) 44); [|discriminate].
      apply IHa. exact Hl.
Qed.


